(** * Items list header and user navigation element

    A shallow embedding of the client-side view code of the Items
    application: the [ItemsListHeader] component (local search text,
    create-dialog flag, optional [onSearch] callback) and the stateless
    [NavUser] component.

    Event handlers are JavaScript closures that mutate React state cells and
    may call an externally supplied function.  They are embedded as
    computations in a small state-and-exception monad: a handler maps the
    world before the event to a completion (normal or thrown) and the world
    after it.  Mutations made before a throw persist, as in JavaScript. *)

From Stdlib Require Import String List Bool.
Import ListNotations.
Open Scope string_scope.
Open Scope list_scope.

Set Implicit Arguments.

(** ** JavaScript completions and effects *)

Module Js.

Inductive Completion (A : Type) : Type :=
| Normal (a : A)
| Throw (err : string).

Arguments Normal {A} a.
Arguments Throw {A} err.

Definition is_normal {A : Type} (c : Completion A) : bool :=
  match c with
  | Normal _ => true
  | Throw _ => false
  end.

(** A computation over a mutable store [S]. *)
Definition Eff (S A : Type) : Type := S -> Completion A * S.

Definition ret {S A : Type} (a : A) : Eff S A :=
  fun s => (Normal a, s).

Definition throw {S A : Type} (err : string) : Eff S A :=
  fun s => (Throw err, s).

Definition bind {S A B : Type} (m : Eff S A) (k : A -> Eff S B) : Eff S B :=
  fun s =>
    match m s with
    | (Normal a, s') => k a s'
    | (Throw err, s') => (Throw err, s')
    end.

Definition modify {S : Type} (f : S -> S) : Eff S unit :=
  fun s => (Normal tt, f s).

(** [x ?? d]: the left operand unless it is null or undefined. *)
Definition nullish {A : Type} (x : option A) (d : A) : A :=
  match x with
  | Some a => a
  | None => d
  end.

(** Truthiness of an optional function value: a function is truthy,
    [undefined] is falsy. *)
Definition truthy {A : Type} (x : option A) : bool :=
  match x with
  | Some _ => true
  | None => false
  end.

(** A parameter with a default initialiser, [p = d]: the default is used
    when the property is [undefined]. *)
Definition default_param {A : Type} (x : option A) (d : A) : A :=
  match x with
  | Some a => a
  | None => d
  end.

End Js.

Declare Scope eff_scope.
Delimit Scope eff_scope with eff.
Notation "m1 ;; m2" := (Js.bind m1 (fun _ => m2))
  (at level 61, right associativity) : eff_scope.

(** ** The query-parameter reader *)

Module URLSearchParams.

(** The parsed query of the current URL: name/value pairs in the order in
    which they occur; a name may occur more than once. *)
Definition t : Type := list (string * string).

(** [get name]: the value of the first pair with that name, [null] when
    there is none. *)
Fixpoint get (name : string) (params : t) : option string :=
  match params with
  | [] => None
  | (k, v) :: rest => if String.eqb k name then Some v else get name rest
  end.

Definition has (name : string) (params : t) : bool :=
  existsb (fun p => String.eqb (fst p) name) params.

End URLSearchParams.

(** A keyboard event, reduced to the one property the handlers read. *)
Record KeyboardEvent : Type := mkKeyboardEvent { key : string }.

(** ** Consumed components

    [ActionHeader] and [CreateItemModal] are imported by the header; only
    the properties the header passes to them are fixed by its source. *)

Module ActionHeader.

Record Props (W : Type) : Type := mkProps {
  title : string;
  description : string;
  onSeachQuery : string -> Js.Eff W unit;
  searchQuery : string;
  onKeyDown : KeyboardEvent -> Js.Eff W unit;
  onClearSearch : Js.Eff W unit;
  onSetModalOpen : bool -> Js.Eff W unit
}.

Section Behaviour.
Context {W : Type}.
Variable p : Props W.

(** Modelled from the spec: the body of [ActionHeader] is not part of the
    sources.  A text change in the search field calls the query-change
    callback with the typed value. *)
Definition text_change (typed : string) : Js.Eff W unit :=
  onSeachQuery p typed.

(** Modelled from the spec: the body of [ActionHeader] is not part of the
    sources.  A key press in the search field calls the key-down callback
    with the event. *)
Definition key_down (e : KeyboardEvent) : Js.Eff W unit :=
  onKeyDown p e.

(** Modelled from the spec: the body of [ActionHeader] is not part of the
    sources.  The clear action calls the clear-search callback. *)
Definition clear : Js.Eff W unit :=
  onClearSearch p.

(** Modelled from the spec: the body of [ActionHeader] is not part of the
    sources.  Activating the create trigger opens the create-item dialog
    through the setter for the modal-open state. *)
Definition create_trigger : Js.Eff W unit :=
  onSetModalOpen p true.

End Behaviour.

End ActionHeader.

Module CreateItemModal.

Record Props (W : Type) : Type := mkProps {
  isOpen : bool;
  onClose : unit -> Js.Eff W unit
}.

(** Modelled from the spec: the body of [CreateItemModal] is not part of
    the sources.  The dialog's own close affordance calls the close
    callback. *)
Definition close {W : Type} (p : Props W) : Js.Eff W unit :=
  onClose p tt.

End CreateItemModal.

(** ** The items list header *)

Module ItemsListHeader.

(** The two [useState] cells of the component. *)
Record State : Type := mkState {
  searchQuery : string;
  isCreateModalOpen : bool
}.

Section WithEnv.

(** [E] is whatever state the code outside the component keeps; the
    [onSearch] callback may read and change it, and may throw. *)
Context {E : Type}.

Definition Callback : Type := string -> Js.Eff E unit.

Record Props : Type := mkProps {
  onSearch : option Callback;
  title : option string;
  initialSearchQuery : option string;
  description : option string
}.

(** The world a handler runs in: the component's state cells, the log of
    the arguments [onSearch] has been called with (oldest first), and the
    state outside the component. *)
Record World : Type := mkWorld {
  hooks : State;
  calls : list string;
  env : E
}.

Definition Handler : Type := Js.Eff World unit.

(** Calling the value of an optional function property.  Calling
    [undefined] throws a TypeError; calling a function logs the argument
    and runs the function on the outside state. *)
Definition call (f : option Callback) (arg : string) : Handler :=
  fun w =>
    match f with
    | None => Js.throw "TypeError: onSearch is not a function" w
    | Some cb =>
        let (c, e') := cb arg (env w) in
        (c, mkWorld (hooks w) (calls w ++ [arg]) e')
    end.

(** The state setters returned by [useState]. *)
Definition setSearchQuery (v : string) : Handler :=
  Js.modify (fun w =>
    mkWorld (mkState v (isCreateModalOpen (hooks w))) (calls w) (env w)).

Definition setIsCreateModalOpen (b : bool) : Handler :=
  Js.modify (fun w =>
    mkWorld (mkState (searchQuery (hooks w)) b) (calls w) (env w)).

(** The initial values given to [useState] on the first render. *)
Definition mount (props : Props) (searchParams : URLSearchParams.t) : State :=
  mkState (Js.nullish (URLSearchParams.get "q" searchParams) "") false.

Section Render.

(** One render: the closures below capture the properties and the state
    values of that render. *)
Variable props : Props.
Variable state : State.

Definition handleSearch : Handler :=
  if Js.truthy (onSearch props)
  then call (onSearch props) (searchQuery state)
  else Js.ret tt.

Definition handleClearSearch : Handler :=
  (setSearchQuery "" ;;
   if Js.truthy (onSearch props)
   then call (onSearch props) ""
   else Js.ret tt)%eff.

Definition handleKeyDown (e : KeyboardEvent) : Handler :=
  if String.eqb (key e) "Enter"
  then handleSearch
  else Js.ret tt.

(** What the component returns: the properties of its two children. *)
Definition render : ActionHeader.Props World * CreateItemModal.Props World :=
  (ActionHeader.mkProps
     (Js.default_param (title props) "Items")
     (Js.default_param (description props) "Manage your items")
     setSearchQuery
     (searchQuery state)
     handleKeyDown
     handleClearSearch
     setIsCreateModalOpen,
   CreateItemModal.mkProps
     (isCreateModalOpen state)
     (fun _ => setIsCreateModalOpen false)).

End Render.

(** User input reaching the component through its two children. *)
Inductive Event : Type :=
| TextChange (typed : string)
| KeyDown (e : KeyboardEvent)
| ClearSearch
| CreateTrigger
| ModalClose.

(** One event: the handlers are those of the render of the current state. *)
Definition fire (props : Props) (ev : Event) : Handler :=
  fun w =>
    let (header, modal) := render props (hooks w) in
    match ev with
    | TextChange typed => ActionHeader.text_change header typed w
    | KeyDown e => ActionHeader.key_down header e w
    | ClearSearch => ActionHeader.clear header w
    | CreateTrigger => ActionHeader.create_trigger header w
    | ModalClose => CreateItemModal.close modal w
    end.

(** A run of events; a throw ends the handler that threw, not the
    component, so later events are still handled. *)
Fixpoint run (props : Props) (evs : list Event) (w : World) : World :=
  match evs with
  | [] => w
  | ev :: rest => run props rest (snd (fire props ev w))
  end.

(** The search-query value the header element is given to show in a
    world, that is, on the render of that world's state. *)
Definition displayed (props : Props) (w : World) : string :=
  ActionHeader.searchQuery (fst (render props (hooks w))).

(** The arguments [onSearch] was called with between two worlds. *)
Definition called_with (w w' : World) (args : list string) : Prop :=
  calls w' = calls w ++ args.

(** A callback that comes back normally whatever it is given. *)
Definition returns_normally (cb : Callback) : Prop :=
  forall (query : string) (e : E), fst (cb query e) = Js.Normal tt.

(** A handler that completes normally from a given world. *)
Definition completes_normally (h : Handler) (w : World) : Prop :=
  fst (h w) = Js.Normal tt.

(** The supplied callback, if there is one, always returns normally. *)
Definition callback_returns (f : option Callback) : Prop :=
  match f with
  | Some cb => returns_normally cb
  | None => True
  end.

(** How a guarded call of [f] on [arg] completes: as [f] does, and
    normally when there is no [f]. *)
Definition guarded_completion (f : option Callback) (arg : string) (e : E)
  : Js.Completion unit :=
  match f with
  | Some cb => fst (cb arg e)
  | None => Js.Normal tt
  end.

(** ** Sessions

    The children can reach the component only through the callbacks it
    hands them.  An invocation is one call of one of those callbacks, with
    whatever argument the child chooses. *)
Inductive Invocation : Type :=
| OnSeachQuery (value : string)
| OnKeyDown (e : KeyboardEvent)
| OnClearSearch
| OnSetModalOpen (open : bool)
| OnClose.

(** One invocation: the callback called is the one handed out by the
    render of the current state. *)
Definition invoke (props : Props) (i : Invocation) : Handler :=
  fun w =>
    let (header, modal) := render props (hooks w) in
    match i with
    | OnSeachQuery value => ActionHeader.onSeachQuery header value w
    | OnKeyDown e => ActionHeader.onKeyDown header e w
    | OnClearSearch => ActionHeader.onClearSearch header w
    | OnSetModalOpen open => ActionHeader.onSetModalOpen header open w
    | OnClose => CreateItemModal.onClose modal tt w
    end.

(** A session: invocations one after the other, each on the render that
    follows the one before.  A handler that throws ends itself only. *)
Fixpoint session (props : Props) (acts : list Invocation) (w : World) : World :=
  match acts with
  | [] => w
  | i :: rest => session props rest (snd (invoke props i w))
  end.

(** Invocations that reach the guarded [onSearch] call. *)
Definition submits (i : Invocation) : bool :=
  match i with
  | OnKeyDown e => String.eqb (key e) "Enter"
  | OnClearSearch => true
  | _ => false
  end.

(** Invocations that write the search text. *)
Definition writes_text (i : Invocation) : bool :=
  match i with
  | OnSeachQuery _ | OnClearSearch => true
  | _ => false
  end.

(** Invocations that write the modal flag. *)
Definition writes_modal (i : Invocation) : bool :=
  match i with
  | OnSetModalOpen _ | OnClose => true
  | _ => false
  end.

(** The arguments a supplied callback receives over a session that starts
    with search text [text], oldest first. *)
Fixpoint search_log (text : string) (acts : list Invocation) : list string :=
  match acts with
  | [] => []
  | OnSeachQuery value :: rest => search_log value rest
  | OnKeyDown e :: rest =>
      if String.eqb (key e) "Enter"
      then text :: search_log text rest
      else search_log text rest
  | OnClearSearch :: rest => "" :: search_log "" rest
  | OnSetModalOpen _ :: rest => search_log text rest
  | OnClose :: rest => search_log text rest
  end.

(** The outside state after the callback has run on each of [args] in
    turn. *)
Definition replay (cb : Callback) (args : list string) (e : E) : E :=
  fold_left (fun e' arg => snd (cb arg e')) args e.

End WithEnv.

Arguments Callback : clear implicits.
Arguments Props : clear implicits.
Arguments World : clear implicits.
Arguments Handler : clear implicits.

End ItemsListHeader.

(** ** The user navigation element *)

Module Jsx.

Local Unset Elimination Schemes.

(** The elements [NavUser] builds, with the properties it sets. *)
Inductive Element : Type :=
| Text (s : string)
| SidebarMenuButton (size className : string) (children : list Element)
| Avatar (className : string) (children : list Element)
| AvatarImage (src alt : string)
| AvatarFallback (className : string) (children : list Element)
| div (className : string) (children : list Element)
| span (className : string) (children : list Element).

Local Set Elimination Schemes.

(** An element and everything below it, parents first. *)
Fixpoint nodes (e : Element) : list Element :=
  e :: match e with
       | Text _ => []
       | SidebarMenuButton _ _ cs => flat_map nodes cs
       | Avatar _ cs => flat_map nodes cs
       | AvatarImage _ _ => []
       | AvatarFallback _ cs => flat_map nodes cs
       | div _ cs => flat_map nodes cs
       | span _ cs => flat_map nodes cs
       end.

(** What ends up on the screen. *)
Inductive Visible : Type :=
| ShownText (s : string)
| ShownImage (src alt : string).

Section Paint.

(** Which image sources the browser manages to load. *)
Variable loads : string -> bool.

(** Modelled from the spec: the avatar elements are not part of the
    sources.  An image is available when its source is present and loads. *)
Definition available (src : string) : bool :=
  negb (String.eqb src "") && loads src.

Definition image_available (e : Element) : bool :=
  match e with
  | AvatarImage src _ => available src
  | _ => false
  end.

(** Modelled from the spec: the avatar elements are not part of the
    sources.  Inside an avatar the image is shown when it is available,
    and the fallback content is shown when the image failed to load or is
    absent; every other element shows its children. [shown] tells whether
    the image of the enclosing avatar is available. *)
Fixpoint paint (shown : bool) (e : Element) : list Visible :=
  match e with
  | Text s => [ShownText s]
  | SidebarMenuButton _ _ cs => flat_map (paint shown) cs
  | Avatar _ cs => flat_map (paint (existsb image_available cs)) cs
  | AvatarImage src alt => if available src then [ShownImage src alt] else []
  | AvatarFallback _ cs => if shown then [] else flat_map (paint shown) cs
  | div _ cs => flat_map (paint shown) cs
  | span _ cs => flat_map (paint shown) cs
  end.

Definition screen (e : Element) : list Visible := paint false e.

End Paint.

End Jsx.

Module NavUser.

Import Jsx.

Record User : Type := mkUser {
  name : string;
  email : string;
  avatar : string
}.

Definition NavUser (user : User) : Element :=
  SidebarMenuButton "lg"
    "data-[state=open]:bg-sidebar-accent data-[state=open]:text-sidebar-accent-foreground"
    [ Avatar "h-8 w-8 rounded-lg grayscale"
        [ AvatarImage (avatar user) (name user);
          AvatarFallback "rounded-lg" [Text "CN"] ];
      div "grid flex-1 text-left text-sm leading-tight"
        [ span "truncate font-medium" [Text (name user)];
          span "truncate text-xs text-muted-foreground" [Text (email user)] ] ].

End NavUser.

(** ** Concrete properties, events and worlds *)

Module Sample.

Import ItemsListHeader.

Definition enter : KeyboardEvent := mkKeyboardEvent "Enter".
Definition letter_a : KeyboardEvent := mkKeyboardEvent "a".

(** The outside state of the samples counts how often the callback ran. *)
Definition counting : Callback nat :=
  fun _ n => (Js.Normal tt, S n).

(** A callback that fails, as a search against an unreachable server
    would. *)
Definition failing : Callback nat :=
  fun _ n => (Js.Throw "search failed", S n).

Definition with_callback (cb : Callback nat) : Props nat :=
  mkProps (Some cb) None None None.

Definition without_callback : Props nat :=
  mkProps None None None None.

Definition state_of (text : string) : State := mkState text false.

Definition world_of (text : string) : World nat :=
  mkWorld (state_of text) [] 0.

Definition ada : NavUser.User :=
  NavUser.mkUser "Ada Lovelace" "ada@example.com" "/ada.png".

(** Type "foo", open and close the dialog, press a letter, press Enter. *)
Definition typing_session : list Invocation :=
  [OnSeachQuery "foo"; OnSetModalOpen true; OnClose; OnKeyDown letter_a;
   OnKeyDown enter].

(** Invocations that write neither the search text nor the modal flag. *)
Definition key_presses : list Invocation :=
  [OnKeyDown enter; OnKeyDown letter_a; OnKeyDown enter].

End Sample.

(** * Properties of the items list header *)

Import ItemsListHeader.

Section HandlerEquations.

Context {E : Type}.
Variable props : Props E.
Variable state : State.

(** An unguarded call of a missing callback is a fault: this is what the
    guards in the handlers avoid. *)
Lemma call_undefined_throws (arg : string) (w : World E) :
  Js.is_normal (fst (call None arg w)) = false /\ snd (call None arg w) = w.
Proof. split; reflexivity. Qed.

Lemma call_defined (cb : Callback E) (arg : string) (w : World E) :
  call (Some cb) arg w =
  (fst (cb arg (env w)), mkWorld (hooks w) (calls w ++ [arg]) (snd (cb arg (env w)))).
Proof.
  unfold call. destruct (cb arg (env w)) as [c e']. reflexivity.
Qed.

Lemma handleSearch_supplied (cb : Callback E) (w : World E) :
  onSearch props = Some cb ->
  handleSearch props state w = call (Some cb) (searchQuery state) w.
Proof.
  intros Hcb. unfold handleSearch. rewrite Hcb. reflexivity.
Qed.

Lemma handleSearch_missing (w : World E) :
  onSearch props = None ->
  handleSearch props state w = (Js.Normal tt, w).
Proof.
  intros Hcb. unfold handleSearch. rewrite Hcb. reflexivity.
Qed.

Lemma handleKeyDown_enter (e : KeyboardEvent) :
  key e = "Enter" ->
  handleKeyDown props state e = handleSearch props state.
Proof.
  intros Hkey. unfold handleKeyDown. rewrite Hkey. reflexivity.
Qed.

Lemma handleKeyDown_other (e : KeyboardEvent) :
  String.eqb (key e) "Enter" = false ->
  handleKeyDown props state e = Js.ret tt.
Proof.
  intros Hkey. unfold handleKeyDown. rewrite Hkey. reflexivity.
Qed.

Lemma handleClearSearch_supplied (cb : Callback E) (w : World E) :
  onSearch props = Some cb ->
  handleClearSearch props w =
  call (Some cb) "" (mkWorld (mkState "" (isCreateModalOpen (hooks w))) (calls w) (env w)).
Proof.
  intros Hcb. unfold handleClearSearch. rewrite Hcb. reflexivity.
Qed.

Lemma handleClearSearch_missing (w : World E) :
  onSearch props = None ->
  handleClearSearch props w =
  (Js.Normal tt, mkWorld (mkState "" (isCreateModalOpen (hooks w))) (calls w) (env w)).
Proof.
  intros Hcb. unfold handleClearSearch. rewrite Hcb. reflexivity.
Qed.

End HandlerEquations.

(** C1.  With an [onSearch] callback supplied, the key-down handler applied
    to an event whose key is "Enter" calls the callback exactly once, with
    the current search text: the call log grows by that one argument, the
    outside state is the one the callback leaves after that single run,
    and the handler completes as the callback does. *)
Theorem handleKeyDown_enter_calls_onSearch :
  forall (E : Type) (props : Props E) (cb : Callback E) (state : State)
         (e : KeyboardEvent) (w : World E),
    onSearch props = Some cb ->
    key e = "Enter" ->
    called_with w (snd (handleKeyDown props state e w)) [searchQuery state] /\
    env (snd (handleKeyDown props state e w)) = snd (cb (searchQuery state) (env w)) /\
    fst (handleKeyDown props state e w) = fst (cb (searchQuery state) (env w)).
Proof.
  intros E props cb state e w Hcb Hkey.
  rewrite handleKeyDown_enter by exact Hkey.
  rewrite handleSearch_supplied with (cb := cb) by exact Hcb.
  rewrite call_defined. unfold called_with. simpl. auto.
Qed.

Lemma handleKeyDown_enter_calls_onSearch_foo :
  onSearch (Sample.with_callback Sample.counting) = Some Sample.counting /\
  key Sample.enter = "Enter" /\
  calls (snd (handleKeyDown (Sample.with_callback Sample.counting)
                (Sample.state_of "foo") Sample.enter (Sample.world_of "foo")))
  = ["foo"] /\
  env (snd (handleKeyDown (Sample.with_callback Sample.counting)
              (Sample.state_of "foo") Sample.enter (Sample.world_of "foo")))
  = 1.
Proof.
  split; [reflexivity | split; [reflexivity | ]].
  destruct (@handleKeyDown_enter_calls_onSearch nat
              (Sample.with_callback Sample.counting) Sample.counting
              (Sample.state_of "foo") Sample.enter (Sample.world_of "foo")
              eq_refl eq_refl) as [Hcalls [Henv _]].
  split; [exact Hcalls | exact Henv].
Defined.

(** C2.  From every prior state, the clear-search handler leaves the search
    text empty and the modal flag as it was; when an [onSearch] callback is
    supplied it is called exactly once, with the empty string, and when
    none is supplied nothing is called. *)
Theorem handleClearSearch_resets_search :
  forall (E : Type) (props : Props E) (w : World E),
    searchQuery (hooks (snd (handleClearSearch props w))) = "" /\
    isCreateModalOpen (hooks (snd (handleClearSearch props w)))
    = isCreateModalOpen (hooks w) /\
    called_with w (snd (handleClearSearch props w))
      (match onSearch props with Some _ => [""] | None => [] end) /\
    env (snd (handleClearSearch props w))
    = match onSearch props with
      | Some cb => snd (cb "" (env w))
      | None => env w
      end.
Proof.
  intros E props w. unfold called_with.
  destruct (onSearch props) as [cb |] eqn:Hcb.
  - rewrite handleClearSearch_supplied with (cb := cb) by exact Hcb.
    rewrite call_defined. simpl. auto.
  - rewrite handleClearSearch_missing by exact Hcb.
    simpl. rewrite app_nil_r. auto.
Qed.

(** C3.  Without an [onSearch] callback, pressing Enter and invoking
    clear-search both complete normally and call nothing, whatever the
    search text is: Enter leaves the world as it was, and clear-search only
    empties the search text. *)
Theorem missing_callback_is_skipped :
  forall (E : Type) (props : Props E) (state : State) (e : KeyboardEvent)
         (w : World E),
    onSearch props = None ->
    key e = "Enter" ->
    handleKeyDown props state e w = (Js.Normal tt, w) /\
    fst (handleClearSearch props w) = Js.Normal tt /\
    called_with w (snd (handleClearSearch props w)) [] /\
    env (snd (handleClearSearch props w)) = env w.
Proof.
  intros E props state e w Hcb Hkey.
  rewrite handleKeyDown_enter by exact Hkey.
  rewrite handleSearch_missing by exact Hcb.
  rewrite handleClearSearch_missing by exact Hcb.
  unfold called_with. simpl. rewrite app_nil_r. auto.
Qed.

Lemma missing_callback_is_skipped_sample :
  onSearch Sample.without_callback = None /\
  key Sample.enter = "Enter" /\
  handleKeyDown Sample.without_callback (Sample.state_of "foo") Sample.enter
    (Sample.world_of "foo")
  = (Js.Normal tt, Sample.world_of "foo") /\
  fst (handleClearSearch Sample.without_callback (Sample.world_of "foo"))
  = Js.Normal tt.
Proof.
  split; [reflexivity | split; [reflexivity | ]].
  destruct (@missing_callback_is_skipped nat Sample.without_callback
              (Sample.state_of "foo") Sample.enter (Sample.world_of "foo")
              eq_refl eq_refl) as [Hkey [Hclear _]].
  split; [exact Hkey | exact Hclear].
Defined.

(** C10.  A key-down event whose key is not "Enter" calls nothing and
    changes nothing; and no key-down event, "Enter" included, changes the
    search text or the modal flag. *)
Theorem handleKeyDown_frame :
  forall (E : Type) (props : Props E) (state : State) (e : KeyboardEvent)
         (w : World E),
    (String.eqb (key e) "Enter" = false ->
     handleKeyDown props state e w = (Js.Normal tt, w)) /\
    hooks (snd (handleKeyDown props state e w)) = hooks w.
Proof.
  intros E props state e w. split.
  - intros Hkey. rewrite handleKeyDown_other by exact Hkey. reflexivity.
  - destruct (String.eqb (key e) "Enter") eqn:Hkey.
    + apply String.eqb_eq in Hkey.
      rewrite handleKeyDown_enter by exact Hkey.
      destruct (onSearch props) as [cb |] eqn:Hcb.
      * rewrite handleSearch_supplied with (cb := cb) by exact Hcb.
        rewrite call_defined. reflexivity.
      * rewrite handleSearch_missing by exact Hcb. reflexivity.
    + rewrite handleKeyDown_other by exact Hkey. reflexivity.
Qed.

Lemma handleKeyDown_frame_sample :
  String.eqb (key Sample.letter_a) "Enter" = false /\
  handleKeyDown (Sample.with_callback Sample.counting) (Sample.state_of "foo")
    Sample.letter_a (Sample.world_of "foo")
  = (Js.Normal tt, Sample.world_of "foo") /\
  hooks (snd (handleKeyDown (Sample.with_callback Sample.counting)
                (Sample.state_of "foo") Sample.enter (Sample.world_of "foo")))
  = Sample.state_of "foo".
Proof.
  split; [reflexivity | split].
  - apply (proj1 (@handleKeyDown_frame nat (Sample.with_callback Sample.counting)
                    (Sample.state_of "foo") Sample.letter_a
                    (Sample.world_of "foo"))).
    reflexivity.
  - apply (proj2 (@handleKeyDown_frame nat (Sample.with_callback Sample.counting)
                    (Sample.state_of "foo") Sample.enter
                    (Sample.world_of "foo"))).
Defined.

(** ** The initial state *)

Section QueryParameter.

Import URLSearchParams.

Lemma get_absent (name : string) (params : t) :
  has name params = false -> get name params = None.
Proof.
  induction params as [| [k v] rest IH]; simpl; intros Habs.
  - reflexivity.
  - apply orb_false_iff in Habs. destruct Habs as [Hk Hrest].
    rewrite Hk. apply IH. exact Hrest.
Qed.

Lemma get_first (name value : string) (before after : t) :
  has name before = false ->
  get name (before ++ (name, value) :: after) = Some value.
Proof.
  induction before as [| [k v] rest IH]; simpl; intros Habs.
  - rewrite String.eqb_refl. reflexivity.
  - apply orb_false_iff in Habs. destruct Habs as [Hk Hrest].
    rewrite Hk. apply IH. exact Hrest.
Qed.

(** A parameter that is present has a first occurrence. *)
Lemma has_first (name : string) (params : t) :
  has name params = true ->
  exists before value after,
    params = before ++ (name, value) :: after /\ has name before = false.
Proof.
  induction params as [| [k v] rest IH]; simpl; intros Hhas.
  - discriminate.
  - destruct (String.eqb k name) eqn:Hk.
    + apply String.eqb_eq in Hk. subst k.
      exists [], v, rest. split; reflexivity.
    + destruct (IH Hhas) as (before & value & after & Heq & Habs).
      exists ((k, v) :: before), value, after. split.
      * rewrite Heq. reflexivity.
      * simpl. rewrite Hk. exact Habs.
Qed.

End QueryParameter.

(** C4.  The initial search text is the value of the [q] parameter of the
    URL query when the parameter is present (its first occurrence when it
    is repeated), and the empty string when it is absent. *)
Theorem mount_searchQuery_from_q :
  forall (E : Type) (props : Props E),
    (forall (before after : URLSearchParams.t) (value : string),
        URLSearchParams.has "q" before = false ->
        searchQuery (mount props (before ++ ("q", value) :: after)) = value) /\
    (forall params : URLSearchParams.t,
        URLSearchParams.has "q" params = false ->
        searchQuery (mount props params) = "").
Proof.
  intros E props. split.
  - intros before after value Habs. unfold mount. simpl.
    rewrite get_first by exact Habs. reflexivity.
  - intros params Habs. unfold mount. simpl.
    rewrite get_absent by exact Habs. reflexivity.
Qed.

Lemma mount_searchQuery_from_q_widget :
  URLSearchParams.has "q" [] = false /\
  searchQuery (mount Sample.without_callback [("q", "widget")]) = "widget" /\
  searchQuery (mount Sample.without_callback [("page", "2")]) = "".
Proof.
  split; [reflexivity | split].
  - apply (proj1 (@mount_searchQuery_from_q nat Sample.without_callback)
             [] [] "widget").
    reflexivity.
  - apply (proj2 (@mount_searchQuery_from_q nat Sample.without_callback)
             [("page", "2")]).
    reflexivity.
Defined.

(** C9.  The [initialSearchQuery] property is ignored: whatever it is set
    to, the initial search text is the [q] parameter of the URL (or empty
    when that is absent), the initial state is the same as with any other
    value of the property, and so is everything the component hands to its
    children. *)
Theorem initialSearchQuery_is_ignored :
  forall (E : Type) (callback : option (Callback E))
         (title_ initial initial' description_ : option string)
         (params : URLSearchParams.t) (state : State),
    searchQuery (mount (mkProps callback title_ initial description_) params)
    = Js.nullish (URLSearchParams.get "q" params) "" /\
    mount (mkProps callback title_ initial description_) params
    = mount (mkProps callback title_ initial' description_) params /\
    render (mkProps callback title_ initial description_) state
    = render (mkProps callback title_ initial' description_) state.
Proof.
  intros. split; [reflexivity | split; reflexivity].
Qed.

(** ** The create dialog and the search field *)

Section FireEquations.

Context {E : Type}.
Variable props : Props E.

Lemma fire_TextChange (typed : string) :
  fire props (TextChange typed) = setSearchQuery typed.
Proof. reflexivity. Qed.

Lemma fire_KeyDown (e : KeyboardEvent) (w : World E) :
  fire props (KeyDown e) w = handleKeyDown props (hooks w) e w.
Proof. reflexivity. Qed.

Lemma fire_ClearSearch :
  fire props ClearSearch = handleClearSearch props.
Proof. reflexivity. Qed.

Lemma fire_CreateTrigger :
  fire props CreateTrigger = setIsCreateModalOpen true.
Proof. reflexivity. Qed.

Lemma fire_ModalClose :
  fire props ModalClose = setIsCreateModalOpen false.
Proof. reflexivity. Qed.

Lemma last_cons {A : Type} (x d : A) (l : list A) :
  last (x :: l) d = last l x.
Proof.
  revert x d. induction l as [| y l IH]; intros x d.
  - reflexivity.
  - change (last (x :: y :: l) d) with (last (y :: l) d).
    rewrite (IH y d), (IH y x). reflexivity.
Qed.

(** Typing only ever touches the search text: after a run of text changes
    it is the last value typed, and nothing else has moved. *)
Lemma run_text_changes (typed : list string) (w : World E) :
  run props (map TextChange typed) w =
  mkWorld (mkState (last typed (searchQuery (hooks w)))
                   (isCreateModalOpen (hooks w)))
          (calls w) (env w).
Proof.
  revert w. induction typed as [| v rest IH]; intros w.
  - destruct w as [[text open] log e]. reflexivity.
  - simpl map. simpl run. rewrite IH. rewrite last_cons. reflexivity.
Qed.

End FireEquations.

(** C5.  The modal flag starts as false; activating the create trigger
    sets it to true and the dialog's close action sets it to false, from
    any prior value, and neither touches the search text nor calls
    anything; the dialog is given the flag as its open state. *)
Theorem create_modal_opens_and_closes :
  forall (E : Type) (props : Props E) (params : URLSearchParams.t)
         (w : World E),
    isCreateModalOpen (mount props params) = false /\
    fire props CreateTrigger w
    = (Js.Normal tt,
       mkWorld (mkState (searchQuery (hooks w)) true) (calls w) (env w)) /\
    fire props ModalClose w
    = (Js.Normal tt,
       mkWorld (mkState (searchQuery (hooks w)) false) (calls w) (env w)) /\
    CreateItemModal.isOpen (snd (render props (hooks w)))
    = isCreateModalOpen (hooks w).
Proof.
  intros E props params w.
  rewrite fire_CreateTrigger, fire_ModalClose.
  split; [reflexivity | split; [reflexivity | split; reflexivity]].
Qed.

(** C6.  The text-change handler the component hands to the header,
    applied to a typed value, completes normally and sets the search text
    to that value; the modal flag, the call log and the outside state are
    as before, so no callback ran.  On the next render the search field is
    given the typed value to show. *)
Theorem text_change_updates_local_state_only :
  forall (E : Type) (props : Props E) (state : State) (typed : string)
         (w : World E),
    ActionHeader.onSeachQuery (fst (render props state)) typed w
    = (Js.Normal tt,
       mkWorld (mkState typed (isCreateModalOpen (hooks w))) (calls w) (env w)) /\
    displayed props
      (snd (ActionHeader.onSeachQuery (fst (render props state)) typed w))
    = typed.
Proof.
  intros E props state typed w. split; reflexivity.
Qed.

(** The same through the header element: after any run of text changes
    the field shows the last value typed, and nothing was called. *)
Lemma typing_shows_last_typed :
  forall (E : Type) (props : Props E) (earlier : list string)
         (typed : string) (w : World E),
    displayed props (run props (map TextChange (earlier ++ [typed])) w)
    = typed /\
    calls (run props (map TextChange (earlier ++ [typed])) w) = calls w /\
    isCreateModalOpen (hooks (run props (map TextChange (earlier ++ [typed])) w))
    = isCreateModalOpen (hooks w).
Proof.
  intros E props earlier typed w. rewrite run_text_changes.
  unfold displayed. simpl. rewrite last_last. auto.
Qed.

(** ** Completion of the handlers *)

Section Completions.

Context {E : Type}.
Variable props : Props E.
Variable state : State.

Lemma handleSearch_completion (w : World E) :
  fst (handleSearch props state w)
  = guarded_completion (onSearch props) (searchQuery state) (env w).
Proof.
  destruct (onSearch props) as [cb |] eqn:Hcb.
  - rewrite handleSearch_supplied with (cb := cb) by exact Hcb.
    rewrite call_defined. reflexivity.
  - rewrite handleSearch_missing by exact Hcb. reflexivity.
Qed.

Lemma handleClearSearch_completion (w : World E) :
  fst (handleClearSearch props w)
  = guarded_completion (onSearch props) "" (env w).
Proof.
  destruct (onSearch props) as [cb |] eqn:Hcb.
  - rewrite handleClearSearch_supplied with (cb := cb) by exact Hcb.
    rewrite call_defined. reflexivity.
  - rewrite handleClearSearch_missing by exact Hcb. reflexivity.
Qed.

Lemma handleKeyDown_completion (e : KeyboardEvent) (w : World E) :
  fst (handleKeyDown props state e w)
  = if String.eqb (key e) "Enter"
    then guarded_completion (onSearch props) (searchQuery state) (env w)
    else Js.Normal tt.
Proof.
  destruct (String.eqb (key e) "Enter") eqn:Hkey.
  - apply String.eqb_eq in Hkey.
    rewrite handleKeyDown_enter by exact Hkey.
    apply handleSearch_completion.
  - rewrite handleKeyDown_other by exact Hkey. reflexivity.
Qed.

Lemma guarded_completion_normal (arg : string) (e : E) :
  callback_returns (onSearch props) ->
  guarded_completion (onSearch props) arg e = Js.Normal tt.
Proof.
  unfold callback_returns, guarded_completion.
  destruct (onSearch props) as [cb |]; intros Hret.
  - apply Hret.
  - reflexivity.
Qed.

End Completions.

(** C7, as the code has it.  A handler faults only when the callback it
    calls does.  The text-change handler, the modal-open setter (create
    trigger), the modal close handler and key-down with a key other than
    "Enter" complete normally from every state; explicit search, key-down
    and clear-search complete exactly as the guarded call of [onSearch]
    does; hence, when the callback is absent or returns normally whenever
    it is called, every handler completes normally for every input and
    every state.  The callback is taken to come back, normally or with a
    throw; nothing is said here of one that never returns. *)
Theorem handlers_complete_unless_callback_throws :
  forall (E : Type) (props : Props E) (state : State) (w : World E),
    (forall typed,
        completes_normally
          (ActionHeader.onSeachQuery (fst (render props state)) typed) w) /\
    (forall open,
        completes_normally
          (ActionHeader.onSetModalOpen (fst (render props state)) open) w) /\
    completes_normally (CreateItemModal.onClose (snd (render props state)) tt) w /\
    (forall e, String.eqb (key e) "Enter" = false ->
        completes_normally
          (ActionHeader.onKeyDown (fst (render props state)) e) w) /\
    fst (handleSearch props state w)
    = guarded_completion (onSearch props) (searchQuery state) (env w) /\
    fst (ActionHeader.onClearSearch (fst (render props state)) w)
    = guarded_completion (onSearch props) "" (env w) /\
    (forall e,
        fst (ActionHeader.onKeyDown (fst (render props state)) e w)
        = if String.eqb (key e) "Enter"
          then guarded_completion (onSearch props) (searchQuery state) (env w)
          else Js.Normal tt) /\
    (callback_returns (onSearch props) ->
     (forall e,
         completes_normally
           (ActionHeader.onKeyDown (fst (render props state)) e) w) /\
     completes_normally (handleSearch props state) w /\
     completes_normally (ActionHeader.onClearSearch (fst (render props state))) w).
Proof.
  intros E props state w. unfold completes_normally. simpl.
  split; [intros typed; reflexivity | ].
  split; [intros open; reflexivity | ].
  split; [reflexivity | ].
  split.
  { intros e Hkey. rewrite handleKeyDown_completion, Hkey. reflexivity. }
  split; [apply handleSearch_completion | ].
  split; [apply handleClearSearch_completion | ].
  split; [intros e; apply handleKeyDown_completion | ].
  intros Hret.
  split.
  { intros e. rewrite handleKeyDown_completion.
    destruct (String.eqb (key e) "Enter"); [ | reflexivity].
    apply guarded_completion_normal. exact Hret. }
  split.
  - rewrite handleSearch_completion.
    apply guarded_completion_normal. exact Hret.
  - rewrite handleClearSearch_completion.
    apply guarded_completion_normal. exact Hret.
Qed.

Lemma handlers_complete_with_counting_callback :
  callback_returns (onSearch (Sample.with_callback Sample.counting)) /\
  String.eqb (key Sample.letter_a) "Enter" = false /\
  completes_normally
    (handleKeyDown (Sample.with_callback Sample.counting)
       (Sample.state_of "foo") Sample.letter_a)
    (Sample.world_of "foo") /\
  completes_normally
    (handleKeyDown (Sample.with_callback Sample.counting)
       (Sample.state_of "foo") Sample.enter)
    (Sample.world_of "foo") /\
  completes_normally
    (handleClearSearch (Sample.with_callback Sample.counting))
    (Sample.world_of "foo").
Proof.
  assert (Hret : callback_returns (onSearch (Sample.with_callback Sample.counting))).
  { simpl. intros query n. reflexivity. }
  split; [exact Hret | split; [reflexivity | ]].
  destruct (@handlers_complete_unless_callback_throws nat
              (Sample.with_callback Sample.counting) (Sample.state_of "foo")
              (Sample.world_of "foo"))
    as (_ & _ & _ & Hother & _ & _ & _ & Hall).
  destruct (Hall Hret) as (Hkey & _ & Hclear).
  split; [apply Hother; reflexivity | ].
  split; [apply (Hkey Sample.enter) | exact Hclear].
Defined.

(** Through the header element and the dialog: with such a callback every
    event is handled to normal completion. *)
Lemma every_event_completes :
  forall (E : Type) (props : Props E) (ev : Event) (w : World E),
    callback_returns (onSearch props) ->
    completes_normally (fire props ev) w.
Proof.
  intros E props ev w Hret. unfold completes_normally.
  destruct ev as [typed | e | | | ].
  - reflexivity.
  - rewrite fire_KeyDown, handleKeyDown_completion.
    destruct (String.eqb (key e) "Enter"); [ | reflexivity].
    apply guarded_completion_normal. exact Hret.
  - rewrite fire_ClearSearch, handleClearSearch_completion.
    apply guarded_completion_normal. exact Hret.
  - reflexivity.
  - reflexivity.
Qed.

(** C7 does not hold for every callback: with one that throws, the
    key-down handler on "Enter", explicit search and clear-search do not
    complete normally. *)
Lemma failing_callback_faults_handlers :
  ~ completes_normally
      (handleKeyDown (Sample.with_callback Sample.failing)
         (Sample.state_of "foo") Sample.enter)
      (Sample.world_of "foo") /\
  fst (handleKeyDown (Sample.with_callback Sample.failing)
         (Sample.state_of "foo") Sample.enter (Sample.world_of "foo"))
  = Js.Throw "search failed" /\
  fst (handleSearch (Sample.with_callback Sample.failing)
         (Sample.state_of "foo") (Sample.world_of "foo"))
  = Js.Throw "search failed" /\
  fst (handleClearSearch (Sample.with_callback Sample.failing)
         (Sample.world_of "foo"))
  = Js.Throw "search failed".
Proof.
  split; [ | split; [reflexivity | split; reflexivity]].
  unfold completes_normally. simpl. discriminate.
Qed.

(** * Properties of the user navigation element *)

Section NavUserFacts.

Import Jsx NavUser.

(** Inside the avatar of [NavUser] exactly one of image and fallback is
    shown. *)
Lemma avatar_shows_image_or_fallback (loads : string -> bool) (user : User) :
  paint loads false
    (Avatar "h-8 w-8 rounded-lg grayscale"
       [ AvatarImage (avatar user) (name user);
         AvatarFallback "rounded-lg" [Text "CN"] ])
  = if available loads (avatar user)
    then [ShownImage (avatar user) (name user)]
    else [ShownText "CN"].
Proof.
  simpl. destruct (available loads (avatar user)); reflexivity.
Qed.

End NavUserFacts.

(** C8.  For every user, the element [NavUser] returns contains the name
    text, the email text and an avatar image whose source is the user's
    avatar string.  On the screen the name and the email are always shown;
    before them comes the image with that source when it is available, and
    the fallback text "CN" when the source is missing or does not load. *)
Theorem NavUser_renders_user :
  forall (user : NavUser.User) (loads : string -> bool),
    In (Jsx.Text (NavUser.name user)) (Jsx.nodes (NavUser.NavUser user)) /\
    In (Jsx.Text (NavUser.email user)) (Jsx.nodes (NavUser.NavUser user)) /\
    In (Jsx.AvatarImage (NavUser.avatar user) (NavUser.name user))
       (Jsx.nodes (NavUser.NavUser user)) /\
    Jsx.screen loads (NavUser.NavUser user)
    = (if Jsx.available loads (NavUser.avatar user)
       then [Jsx.ShownImage (NavUser.avatar user) (NavUser.name user)]
       else [Jsx.ShownText "CN"])
      ++ [Jsx.ShownText (NavUser.name user); Jsx.ShownText (NavUser.email user)].
Proof.
  intros user loads.
  split; [simpl; tauto | ].
  split; [simpl; tauto | ].
  split; [simpl; tauto | ].
  unfold Jsx.screen, NavUser.NavUser.
  change (Jsx.paint loads false (Jsx.SidebarMenuButton ?s ?c (?a :: ?d :: nil)))
    with (Jsx.paint loads false a ++ Jsx.paint loads false d ++ nil).
  rewrite avatar_shows_image_or_fallback. reflexivity.
Qed.

(** The user of the specification's example: the image when "/ada.png"
    loads, "CN" when it does not, and "CN" when the source is empty. *)
Lemma NavUser_ada :
  Jsx.screen (fun _ => true) (NavUser.NavUser Sample.ada)
  = [Jsx.ShownImage "/ada.png" "Ada Lovelace";
     Jsx.ShownText "Ada Lovelace"; Jsx.ShownText "ada@example.com"] /\
  Jsx.screen (fun _ => false) (NavUser.NavUser Sample.ada)
  = [Jsx.ShownText "CN";
     Jsx.ShownText "Ada Lovelace"; Jsx.ShownText "ada@example.com"] /\
  Jsx.screen (fun _ => true)
    (NavUser.NavUser (NavUser.mkUser "Ada Lovelace" "ada@example.com" ""))
  = [Jsx.ShownText "CN";
     Jsx.ShownText "Ada Lovelace"; Jsx.ShownText "ada@example.com"].
Proof.
  split; [reflexivity | split; reflexivity].
Qed.

(** * Sessions of the items list header *)

Section SessionFacts.

Context {E : Type}.
Variable props : Props E.

Lemma session_app (first second : list Invocation) (w : World E) :
  session props (first ++ second) w
  = session props second (session props first w).
Proof.
  revert w. induction first as [| i rest IH]; intros w.
  - reflexivity.
  - simpl. apply IH.
Qed.

Lemma invoke_OnKeyDown (e : KeyboardEvent) (w : World E) :
  invoke props (OnKeyDown e) w = handleKeyDown props (hooks w) e w.
Proof. reflexivity. Qed.

Lemma invoke_OnClearSearch (w : World E) :
  invoke props OnClearSearch w = handleClearSearch props w.
Proof. reflexivity. Qed.

(** The state cells after one invocation. *)
Lemma invoke_hooks (i : Invocation) (w : World E) :
  hooks (snd (invoke props i w))
  = match i with
    | OnSeachQuery value => mkState value (isCreateModalOpen (hooks w))
    | OnKeyDown _ => hooks w
    | OnClearSearch => mkState "" (isCreateModalOpen (hooks w))
    | OnSetModalOpen open => mkState (searchQuery (hooks w)) open
    | OnClose => mkState (searchQuery (hooks w)) false
    end.
Proof.
  destruct i as [value | e | | open | ]; try reflexivity.
  - rewrite invoke_OnKeyDown.
    destruct (String.eqb (key e) "Enter") eqn:Hkey.
    + apply String.eqb_eq in Hkey.
      rewrite handleKeyDown_enter by exact Hkey.
      destruct (onSearch props) as [cb |] eqn:Hcb.
      * rewrite handleSearch_supplied with (cb := cb) by exact Hcb.
        rewrite call_defined. reflexivity.
      * rewrite handleSearch_missing by exact Hcb. reflexivity.
    + rewrite handleKeyDown_other by exact Hkey. reflexivity.
  - rewrite invoke_OnClearSearch.
    destruct (onSearch props) as [cb |] eqn:Hcb.
    + rewrite handleClearSearch_supplied with (cb := cb) by exact Hcb.
      rewrite call_defined. reflexivity.
    + rewrite handleClearSearch_missing by exact Hcb. reflexivity.
Qed.

(** The call log and the outside state after one invocation, with a
    callback. *)
Lemma invoke_effects_supplied (cb : Callback E) (i : Invocation) (w : World E) :
  onSearch props = Some cb ->
  calls (snd (invoke props i w))
  = calls w ++ search_log (searchQuery (hooks w)) [i] /\
  env (snd (invoke props i w))
  = replay cb (search_log (searchQuery (hooks w)) [i]) (env w).
Proof.
  intros Hcb.
  destruct i as [value | e | | open | ]; simpl search_log;
    try (simpl; rewrite app_nil_r; split; reflexivity).
  - rewrite invoke_OnKeyDown.
    destruct (String.eqb (key e) "Enter") eqn:Hkey.
    + apply String.eqb_eq in Hkey.
      rewrite handleKeyDown_enter by exact Hkey.
      rewrite handleSearch_supplied with (cb := cb) by exact Hcb.
      rewrite call_defined. split; reflexivity.
    + rewrite handleKeyDown_other by exact Hkey.
      simpl. rewrite app_nil_r. split; reflexivity.
  - rewrite invoke_OnClearSearch.
    rewrite handleClearSearch_supplied with (cb := cb) by exact Hcb.
    rewrite call_defined. split; reflexivity.
Qed.

(** The call log and the outside state after one invocation, without a
    callback. *)
Lemma invoke_effects_missing (i : Invocation) (w : World E) :
  onSearch props = None ->
  calls (snd (invoke props i w)) = calls w /\
  env (snd (invoke props i w)) = env w.
Proof.
  intros Hcb.
  destruct i as [value | e | | open | ]; try (split; reflexivity).
  - rewrite invoke_OnKeyDown.
    destruct (String.eqb (key e) "Enter") eqn:Hkey.
    + apply String.eqb_eq in Hkey.
      rewrite handleKeyDown_enter by exact Hkey.
      rewrite handleSearch_missing by exact Hcb. split; reflexivity.
    + rewrite handleKeyDown_other by exact Hkey. split; reflexivity.
  - rewrite invoke_OnClearSearch.
    rewrite handleClearSearch_missing by exact Hcb. split; reflexivity.
Qed.

Lemma search_log_cons (text : string) (i : Invocation) (rest : list Invocation) :
  search_log text (i :: rest)
  = search_log text [i]
    ++ search_log (match i with
                   | OnSeachQuery value => value
                   | OnClearSearch => ""
                   | _ => text
                   end) rest.
Proof.
  destruct i as [value | e | | open | ]; simpl; try reflexivity.
  destruct (String.eqb (key e) "Enter"); reflexivity.
Qed.

Lemma replay_app (cb : Callback E) (first second : list string) (e : E) :
  replay cb (first ++ second) e = replay cb second (replay cb first e).
Proof. unfold replay. apply fold_left_app. Qed.

(** The call log and the outside state after a session, with a callback. *)
Lemma session_effects_supplied (cb : Callback E) (acts : list Invocation)
      (w : World E) :
  onSearch props = Some cb ->
  calls (session props acts w)
  = calls w ++ search_log (searchQuery (hooks w)) acts /\
  env (session props acts w)
  = replay cb (search_log (searchQuery (hooks w)) acts) (env w).
Proof.
  intros Hcb. revert w. induction acts as [| i rest IH]; intros w.
  - simpl. rewrite app_nil_r. split; reflexivity.
  - destruct (IH (snd (invoke props i w))) as [IHcalls IHenv].
    destruct (invoke_effects_supplied i w Hcb) as [Hcalls Henv].
    change (session props (i :: rest) w)
      with (session props rest (snd (invoke props i w))).
    rewrite IHcalls, IHenv, Hcalls, Henv, invoke_hooks.
    rewrite (search_log_cons (searchQuery (hooks w)) i rest).
    rewrite replay_app, <- app_assoc.
    destruct i; split; reflexivity.
Qed.

Lemma session_effects_missing (acts : list Invocation) (w : World E) :
  onSearch props = None ->
  calls (session props acts w) = calls w /\
  env (session props acts w) = env w.
Proof.
  intros Hcb. revert w. induction acts as [| i rest IH]; intros w.
  - split; reflexivity.
  - destruct (IH (snd (invoke props i w))) as [IHcalls IHenv].
    destruct (invoke_effects_missing i w Hcb) as [Hcalls Henv].
    simpl. rewrite IHcalls, IHenv. split; assumption.
Qed.

Lemma search_log_length (text : string) (acts : list Invocation) :
  length (search_log text acts) = length (filter submits acts).
Proof.
  revert text. induction acts as [| i rest IH]; intros text.
  - reflexivity.
  - destruct i as [value | e | | open | ]; simpl; try apply IH.
    + destruct (String.eqb (key e) "Enter"); simpl; rewrite IH; reflexivity.
    + rewrite IH. reflexivity.
Qed.


(** Invocations that do not write a cell leave it alone. *)
Lemma session_keeps_text (acts : list Invocation) (w : World E) :
  forallb (fun i => negb (writes_text i)) acts = true ->
  searchQuery (hooks (session props acts w)) = searchQuery (hooks w).
Proof.
  revert w. induction acts as [| i rest IH]; intros w Hquiet.
  - reflexivity.
  - simpl in Hquiet. apply andb_true_iff in Hquiet.
    destruct Hquiet as [Hi Hrest].
    simpl. rewrite (IH _ Hrest), invoke_hooks.
    destruct i; try reflexivity; discriminate Hi.
Qed.

Lemma session_keeps_modal (acts : list Invocation) (w : World E) :
  forallb (fun i => negb (writes_modal i)) acts = true ->
  isCreateModalOpen (hooks (session props acts w)) = isCreateModalOpen (hooks w).
Proof.
  revert w. induction acts as [| i rest IH]; intros w Hquiet.
  - reflexivity.
  - simpl in Hquiet. apply andb_true_iff in Hquiet.
    destruct Hquiet as [Hi Hrest].
    simpl. rewrite (IH _ Hrest), invoke_hooks.
    destruct i; try reflexivity; discriminate Hi.
Qed.

End SessionFacts.

(** X1.  The key-down handler submits the search text of the render it
    belongs to.  After any session, in which every call goes to the
    callbacks of the render current at that moment, an Enter key-down on
    the handler of the current render calls a supplied callback exactly
    once, with the text the search field shows, and leaves that text in
    place.  The key-down handler of any other render, called in the same
    world, calls the callback once with the text that render captured,
    whatever the field shows by then, and leaves the shown text in place
    too. *)
Theorem enter_submits_displayed_text :
  forall (E : Type) (props : Props E) (cb : Callback E)
         (acts : list Invocation) (e : KeyboardEvent) (w : World E),
    onSearch props = Some cb ->
    key e = "Enter" ->
    calls (session props (acts ++ [OnKeyDown e]) w)
    = calls (session props acts w) ++ [displayed props (session props acts w)] /\
    displayed props (session props (acts ++ [OnKeyDown e]) w)
    = displayed props (session props acts w) /\
    (forall captured : State,
        calls (snd (ActionHeader.onKeyDown (fst (render props captured)) e
                      (session props acts w)))
        = calls (session props acts w) ++ [searchQuery captured] /\
        displayed props
          (snd (ActionHeader.onKeyDown (fst (render props captured)) e
                  (session props acts w)))
        = displayed props (session props acts w)).
Proof.
  intros E props cb acts e w Hcb Hkey.
  rewrite session_app. set (w1 := session props acts w).
  unfold displayed. simpl.
  destruct (invoke_effects_supplied props (OnKeyDown e) w1 Hcb) as [Hcalls _].
  rewrite Hcalls, invoke_hooks. simpl. rewrite Hkey. simpl.
  split; [reflexivity | split; [reflexivity | ]].
  intros captured.
  rewrite handleKeyDown_enter by exact Hkey.
  rewrite handleSearch_supplied with (cb := cb) by exact Hcb.
  rewrite call_defined. split; reflexivity.
Qed.

Lemma enter_submits_displayed_text_sample :
  onSearch (Sample.with_callback Sample.counting) = Some Sample.counting /\
  key Sample.enter = "Enter" /\
  calls (session (Sample.with_callback Sample.counting)
           ([OnSeachQuery "foo"; OnClose] ++ [OnKeyDown Sample.enter])
           (Sample.world_of ""))
  = ["foo"] /\
  calls (snd (handleKeyDown (Sample.with_callback Sample.counting)
                (Sample.state_of "") Sample.enter
                (session (Sample.with_callback Sample.counting)
                   [OnSeachQuery "foo"; OnClose] (Sample.world_of ""))))
  = [""].
Proof.
  split; [reflexivity | split; [reflexivity | ]].
  destruct (@enter_submits_displayed_text nat
              (Sample.with_callback Sample.counting) Sample.counting
              [OnSeachQuery "foo"; OnClose] Sample.enter
              (Sample.world_of "") eq_refl eq_refl)
    as (Hcurrent & _ & Hcaptured).
  split; [exact Hcurrent | ].
  exact (proj1 (Hcaptured (Sample.state_of ""))).
Defined.

(** X2.  Without a callback no session, however long, calls anything or
    changes the state outside the component. *)
Theorem session_without_callback_is_silent :
  forall (E : Type) (props : Props E) (acts : list Invocation) (w : World E),
    onSearch props = None ->
    calls (session props acts w) = calls w /\
    env (session props acts w) = env w.
Proof.
  intros E props acts w Hcb. apply session_effects_missing. exact Hcb.
Qed.

Lemma session_without_callback_is_silent_sample :
  onSearch Sample.without_callback = None /\
  calls (session Sample.without_callback Sample.typing_session
           (Sample.world_of ""))
  = [] /\
  env (session Sample.without_callback Sample.typing_session
         (Sample.world_of ""))
  = 0.
Proof.
  split; [reflexivity | ].
  apply (@session_without_callback_is_silent nat Sample.without_callback
           Sample.typing_session (Sample.world_of "") eq_refl).
Defined.

(** X3.  With a callback, a session makes exactly one call for each Enter
    key-down and each clear-search in it, and none for anything else. *)
Theorem one_call_per_submit :
  forall (E : Type) (props : Props E) (cb : Callback E)
         (acts : list Invocation) (w : World E),
    onSearch props = Some cb ->
    length (calls (session props acts w))
    = length (calls w) + length (filter submits acts).
Proof.
  intros E props cb acts w Hcb.
  destruct (session_effects_supplied props acts w Hcb) as [Hcalls _].
  rewrite Hcalls, length_app, search_log_length. reflexivity.
Qed.

Lemma one_call_per_submit_sample :
  onSearch (Sample.with_callback Sample.failing) = Some Sample.failing /\
  length (calls (session (Sample.with_callback Sample.failing)
                   (OnClearSearch :: Sample.typing_session)
                   (Sample.world_of "bar")))
  = 2.
Proof.
  split; [reflexivity | ].
  apply (@one_call_per_submit nat (Sample.with_callback Sample.failing)
           Sample.failing (OnClearSearch :: Sample.typing_session)
           (Sample.world_of "bar") eq_refl).
Defined.



(** X5.  The state outside the component changes only through the
    callback: after a session it is what running the callback on the newly
    logged arguments, in order, makes of it. *)
Theorem outside_state_is_replay_of_calls :
  forall (E : Type) (props : Props E) (cb : Callback E)
         (acts : list Invocation) (w : World E) (new : list string),
    onSearch props = Some cb ->
    calls (session props acts w) = calls w ++ new ->
    env (session props acts w) = replay cb new (env w).
Proof.
  intros E props cb acts w new Hcb Hnew.
  destruct (session_effects_supplied props acts w Hcb) as [Hcalls Henv].
  rewrite Hcalls in Hnew. apply app_inv_head in Hnew.
  rewrite Henv, Hnew. reflexivity.
Qed.

Lemma outside_state_is_replay_of_calls_sample :
  onSearch (Sample.with_callback Sample.counting) = Some Sample.counting /\
  calls (session (Sample.with_callback Sample.counting)
           (OnClearSearch :: Sample.typing_session) (Sample.world_of "bar"))
  = calls (Sample.world_of "bar") ++ [""; "foo"] /\
  env (session (Sample.with_callback Sample.counting)
         (OnClearSearch :: Sample.typing_session) (Sample.world_of "bar"))
  = 2.
Proof.
  split; [reflexivity | split; [reflexivity | ]].
  apply (@outside_state_is_replay_of_calls nat
           (Sample.with_callback Sample.counting) Sample.counting
           (OnClearSearch :: Sample.typing_session) (Sample.world_of "bar")
           [""; "foo"] eq_refl eq_refl).
Defined.

(** X6.  The modal flag is what the last modal write made it: after
    invocations that are neither the modal-open setter nor the close
    handler the flag is unchanged, so a session ending in such invocations
    after the setter called with [open] leaves the flag at [open], and
    after the close handler leaves it false.  Searching never opens or
    closes the dialog. *)
Theorem modal_flag_is_last_write :
  forall (E : Type) (props : Props E) (after : list Invocation) (w : World E),
    forallb (fun i => negb (writes_modal i)) after = true ->
    isCreateModalOpen (hooks (session props after w))
    = isCreateModalOpen (hooks w) /\
    (forall (before : list Invocation) (open : bool),
        isCreateModalOpen
          (hooks (session props (before ++ OnSetModalOpen open :: after) w))
        = open) /\
    (forall before : list Invocation,
        isCreateModalOpen
          (hooks (session props (before ++ OnClose :: after) w))
        = false).
Proof.
  intros E props after w Hquiet.
  split; [apply session_keeps_modal; exact Hquiet | ].
  split.
  - intros before open. rewrite session_app. simpl.
    rewrite session_keeps_modal by exact Hquiet. reflexivity.
  - intros before. rewrite session_app. simpl.
    rewrite session_keeps_modal by exact Hquiet. reflexivity.
Qed.

Lemma modal_flag_is_last_write_sample :
  forallb (fun i => negb (writes_modal i)) Sample.key_presses = true /\
  isCreateModalOpen
    (hooks (session (Sample.with_callback Sample.failing)
              ([OnClose] ++ OnSetModalOpen true :: Sample.key_presses)
              (Sample.world_of "foo")))
  = true.
Proof.
  split; [reflexivity | ].
  apply (proj1 (proj2 (@modal_flag_is_last_write nat
                         (Sample.with_callback Sample.failing)
                         Sample.key_presses (Sample.world_of "foo") eq_refl))
           [OnClose] true).
Defined.

(** X7.  The search text is what the last text write made it: after
    invocations that are neither the text-change callback nor clear-search
    the text is unchanged, so a session ending in such invocations after a
    text change to [value] leaves the text at [value], and after a
    clear-search leaves it empty.  Key presses, the dialog and the
    callback, even one that throws, never alter the search text. *)
Theorem search_text_is_last_write :
  forall (E : Type) (props : Props E) (after : list Invocation) (w : World E),
    forallb (fun i => negb (writes_text i)) after = true ->
    searchQuery (hooks (session props after w)) = searchQuery (hooks w) /\
    (forall (before : list Invocation) (value : string),
        searchQuery
          (hooks (session props (before ++ OnSeachQuery value :: after) w))
        = value) /\
    (forall before : list Invocation,
        searchQuery
          (hooks (session props (before ++ OnClearSearch :: after) w))
        = "").
Proof.
  intros E props after w Hquiet.
  split; [apply session_keeps_text; exact Hquiet | ].
  split.
  - intros before value. rewrite session_app.
    change (session props (OnSeachQuery value :: after) ?w0)
      with (session props after (snd (invoke props (OnSeachQuery value) w0))).
    rewrite session_keeps_text by exact Hquiet.
    rewrite invoke_hooks. reflexivity.
  - intros before. rewrite session_app.
    change (session props (OnClearSearch :: after) ?w0)
      with (session props after (snd (invoke props OnClearSearch w0))).
    rewrite session_keeps_text by exact Hquiet.
    rewrite invoke_hooks. reflexivity.
Qed.

Lemma search_text_is_last_write_sample :
  forallb (fun i => negb (writes_text i)) Sample.key_presses = true /\
  searchQuery
    (hooks (session (Sample.with_callback Sample.failing)
              ([OnClearSearch] ++ OnSeachQuery "foo" :: Sample.key_presses)
              (Sample.world_of "bar")))
  = "foo".
Proof.
  split; [reflexivity | ].
  apply (proj1 (proj2 (@search_text_is_last_write nat
                         (Sample.with_callback Sample.failing)
                         Sample.key_presses (Sample.world_of "bar") eq_refl))
           [OnClearSearch] "foo").
Defined.

Lemma app_one_neq {A : Type} (l : list A) (x : A) : l ++ [x] <> l.
Proof.
  intros Heq. rewrite <- (app_nil_r l) in Heq at 2.
  apply app_inv_head in Heq. discriminate Heq.
Qed.

(** X8.  The key-down handler calls the callback if and only if the key
    is exactly "Enter" and a callback is supplied. *)
Theorem handleKeyDown_calls_iff :
  forall (E : Type) (props : Props E) (state : State) (e : KeyboardEvent)
         (w : World E),
    calls (snd (handleKeyDown props state e w)) <> calls w <->
    key e = "Enter" /\ onSearch props <> None.
Proof.
  intros E props state e w.
  destruct (String.eqb (key e) "Enter") eqn:Hkey.
  - apply String.eqb_eq in Hkey.
    rewrite handleKeyDown_enter by exact Hkey.
    destruct (onSearch props) as [cb |] eqn:Hcb.
    + rewrite handleSearch_supplied with (cb := cb) by exact Hcb.
      rewrite call_defined. simpl. split.
      * intros _. split; [exact Hkey | discriminate].
      * intros _. apply app_one_neq.
    + rewrite handleSearch_missing by exact Hcb. simpl. split.
      * intros Hneq. exfalso. apply Hneq. reflexivity.
      * intros [_ Hsome]. exfalso. apply Hsome. reflexivity.
  - rewrite handleKeyDown_other by exact Hkey. simpl. split.
    + intros Hneq. exfalso. apply Hneq. reflexivity.
    + intros [Henter _]. apply String.eqb_neq in Hkey.
      exfalso. apply Hkey. exact Henter.
Qed.

Lemma handleKeyDown_calls_iff_sample :
  (key Sample.enter = "Enter" /\
   onSearch (Sample.with_callback Sample.counting) <> None) /\
  calls (snd (handleKeyDown (Sample.with_callback Sample.counting)
                (Sample.state_of "foo") Sample.enter (Sample.world_of "foo")))
  <> calls (Sample.world_of "foo").
Proof.
  assert (Hright : key Sample.enter = "Enter" /\
                   onSearch (Sample.with_callback Sample.counting) <> None).
  { split; [reflexivity | discriminate]. }
  split; [exact Hright | ].
  apply (proj2 (@handleKeyDown_calls_iff nat
                  (Sample.with_callback Sample.counting)
                  (Sample.state_of "foo") Sample.enter
                  (Sample.world_of "foo"))).
  exact Hright.
Defined.

(** X9.  Pressing Enter right after the first render, before anything is
    typed, calls a supplied callback once with the value of the first [q]
    parameter of the URL, and with the empty string when the URL has no
    [q] parameter. *)
Theorem enter_after_mount_submits_q :
  forall (E : Type) (props : Props E) (cb : Callback E) (e : KeyboardEvent)
         (log : list string) (outside : E),
    onSearch props = Some cb ->
    key e = "Enter" ->
    (forall (before after : URLSearchParams.t) (value : string),
        URLSearchParams.has "q" before = false ->
        calls (snd (invoke props (OnKeyDown e)
                      (mkWorld (mount props (before ++ ("q", value) :: after))
                               log outside)))
        = log ++ [value]) /\
    (forall params : URLSearchParams.t,
        URLSearchParams.has "q" params = false ->
        calls (snd (invoke props (OnKeyDown e)
                      (mkWorld (mount props params) log outside)))
        = log ++ [""]).
Proof.
  intros E props cb e log outside Hcb Hkey. split.
  - intros before after value Habs.
    destruct (invoke_effects_supplied props (OnKeyDown e)
                (mkWorld (mount props (before ++ ("q", value) :: after))
                         log outside) Hcb) as [Hcalls _].
    rewrite Hcalls. simpl. rewrite Hkey. simpl.
    rewrite get_first by exact Habs. reflexivity.
  - intros params Habs.
    destruct (invoke_effects_supplied props (OnKeyDown e)
                (mkWorld (mount props params) log outside) Hcb) as [Hcalls _].
    rewrite Hcalls. simpl. rewrite Hkey. simpl.
    rewrite get_absent by exact Habs. reflexivity.
Qed.

Lemma enter_after_mount_submits_q_sample :
  onSearch (Sample.with_callback Sample.counting) = Some Sample.counting /\
  key Sample.enter = "Enter" /\
  URLSearchParams.has "q" [("page", "2")] = false /\
  calls (snd (invoke (Sample.with_callback Sample.counting)
                (OnKeyDown Sample.enter)
                (mkWorld (mount (Sample.with_callback Sample.counting)
                            ([("page", "2")] ++ ("q", "widget") :: [("q", "other")]))
                         [] 0)))
  = ["widget"].
Proof.
  split; [reflexivity | split; [reflexivity | split; [reflexivity | ]]].
  apply (proj1 (@enter_after_mount_submits_q nat
                  (Sample.with_callback Sample.counting) Sample.counting
                  Sample.enter [] 0 eq_refl eq_refl)
           [("page", "2")] [("q", "other")] "widget").
  reflexivity.
Defined.

(** X10.  The element [NavUser] builds determines the user: two users
    with the same element have the same name, email and avatar. *)
Theorem NavUser_injective :
  forall user user' : NavUser.User,
    NavUser.NavUser user = NavUser.NavUser user' ->
    user = user'.
Proof.
  intros [n m a] [n' m' a'] Heq.
  unfold NavUser.NavUser in Heq. simpl in Heq.
  injection Heq as Havatar Hname Hemail.
  subst. reflexivity.
Qed.

Lemma NavUser_injective_sample :
  NavUser.NavUser Sample.ada
  = NavUser.NavUser
      (NavUser.mkUser "Ada Lovelace" "ada@example.com" "/ada.png") /\
  Sample.ada = NavUser.mkUser "Ada Lovelace" "ada@example.com" "/ada.png".
Proof.
  split; [reflexivity | ].
  apply (@NavUser_injective Sample.ada
           (NavUser.mkUser "Ada Lovelace" "ada@example.com" "/ada.png")).
  reflexivity.
Defined.
